(** * KServe deployer steps and custom model server of zenml, shallowly embedded.

    Sources:
    - src/zenml/integrations/kserve/steps/kserve_deployer.py
    - src/zenml/integrations/kserve/custom_deployer/zenml_custom_model.py

    The two deployer steps mutate the caller's step configuration object
    and talk to the active model deployer (the deployment registry).  Both
    are modelled with a state and error monad whose state holds the shared
    configuration object, the registry contents and a trace of the calls
    made to the external platform. *)

From Stdlib Require Import String Ascii List Bool ZArith Lia.
Import ListNotations.
Open Scope string_scope.
#[local] Set Warnings "-register-all".

(** ** Python exceptions that the modelled code raises or propagates. *)
Inductive exc : Type :=
| ValueError (msg : string)
| AttributeError (msg : string)
| ModuleNotFoundError (msg : string)
| NotImplementedError (msg : string)
| Exception_ (msg : string)
| KeyError (key : string)
| DeploymentError (msg : string)
(** pydantic's ValidationError, carrying the messages of the ValueErrors
    raised by the field validators *)
| ValidationError (messages : list string)
| TypeError (msg : string).

(** ** Data model *)

Record ContainerSpec : Type := mkContainerSpec {
  c_name : string;
  c_image : string;
  c_command : list string;
  c_storage_uri : string
}.

(** KServeDeploymentConfig (the fields the steps read or write, plus
    resources and replicas standing for the remaining ones). *)
Record KServeDeploymentConfig : Type := mkServiceConfig {
  model_name : string;
  model_uri : string;
  predictor : string;
  resources : list (string * string);
  replicas : nat;
  pipeline_name : string;
  pipeline_run_id : string;
  pipeline_step_name : string;
  containers : option ContainerSpec
}.

Definition set_pipeline_identity (sc : KServeDeploymentConfig)
    (pn rid sn : string) : KServeDeploymentConfig :=
  mkServiceConfig sc.(model_name) sc.(model_uri) sc.(predictor)
    sc.(resources) sc.(replicas) pn rid sn sc.(containers).

Definition set_model_uri (sc : KServeDeploymentConfig) (uri : string)
    : KServeDeploymentConfig :=
  mkServiceConfig sc.(model_name) uri sc.(predictor) sc.(resources)
    sc.(replicas) sc.(pipeline_name) sc.(pipeline_run_id)
    sc.(pipeline_step_name) sc.(containers).

Definition set_containers (sc : KServeDeploymentConfig)
    (c : option ContainerSpec) : KServeDeploymentConfig :=
  mkServiceConfig sc.(model_name) sc.(model_uri) sc.(predictor)
    sc.(resources) sc.(replicas) sc.(pipeline_name) sc.(pipeline_run_id)
    sc.(pipeline_step_name) c.

Record TorchServeParamters : Type := mkTorchServeParamters {
  model_class : string;
  handler : string;
  extra_files : option (list string);
  requirements_file : option string;
  model_version : option string;
  torch_config : option string
}.

Record CustomDeployParamters : Type := mkCustomDeployParamters {
  predict_function : string
}.

Record KServeDeployerStepConfig : Type := mkStepConfig {
  service_config : KServeDeploymentConfig;
  torch_serve_paramters : option TorchServeParamters;
  custom_deploy_paramters : option CustomDeployParamters;
  timeout : Z
}.

Definition set_service_config (c : KServeDeployerStepConfig)
    (sc : KServeDeploymentConfig) : KServeDeployerStepConfig :=
  mkStepConfig sc c.(torch_serve_paramters) c.(custom_deploy_paramters)
    c.(timeout).

(** The runtime information of StepEnvironment the steps read. *)
Record StepEnvironment : Type := mkStepEnvironment {
  se_pipeline_name : string;
  se_pipeline_run_id : string;
  se_step_name : string;
  se_pipeline_requirements : list string
}.

(** KServeDeploymentService: the registry's record of a deployment. *)
Record KServeDeploymentService : Type := mkService {
  svc_uuid : nat;
  svc_config : KServeDeploymentConfig;
  is_running : bool
}.

(** Calls made to the active model deployer, in order. *)
Inductive Event : Type :=
| EvFind (pipeline_name pipeline_step_name model_name : string)
| EvStart (uuid : nat) (timeout : Z)
| EvPrepareImage (pipeline_name step_name : string)
    (requirements entrypoint : list string)
| EvDeploy (config : KServeDeploymentConfig) (replace : bool) (timeout : Z).

Record St : Type := mkSt {
  cfg : KServeDeployerStepConfig;     (** the caller's config object *)
  registry : list KServeDeploymentService;  (** most recent first *)
  next_uuid : nat;
  platform_ok : bool;   (** whether the serving platform accepts calls *)
  built_image : string; (** image name the image builder produces *)
  trace : list Event
}.

(** ** A state and error monad.  An exception keeps the effects already
    performed. *)
Definition M (A : Type) : Type := St -> (exc + A) * St.

Definition ret {A} (a : A) : M A := fun s => (inr a, s).
Definition raise {A} (e : exc) : M A := fun s => (inl e, s).
Definition bind {A B} (m : M A) (k : A -> M B) : M B :=
  fun s => match m s with
           | (inl e, s') => (inl e, s')
           | (inr a, s') => k a s'
           end.

Notation "x <- m ;; k" := (bind m (fun x => k))
  (at level 61, m at next level, right associativity).
Notation "m ;;; k" := (bind m (fun _ => k))
  (at level 61, right associativity).

Definition get_cfg : M KServeDeployerStepConfig := fun s => (inr s.(cfg), s).
Definition put_cfg (c : KServeDeployerStepConfig) : M unit :=
  fun s => (inr tt, mkSt c s.(registry) s.(next_uuid) s.(platform_ok)
                        s.(built_image) s.(trace)).
Definition log (ev : Event) : M unit :=
  fun s => (inr tt, mkSt s.(cfg) s.(registry) s.(next_uuid) s.(platform_ok)
                        s.(built_image) (s.(trace) ++ [ev])).
Definition put_registry (r : list KServeDeploymentService) (n : nat) : M unit :=
  fun s => (inr tt, mkSt s.(cfg) r n s.(platform_ok) s.(built_image)
                        s.(trace)).
Definition get_state : M St := fun s => (inr s, s).

(** ** The active model deployer (KServeModelDeployer) *)

(** Modelled from the spec: KServeModelDeployer.find_model_server (not in
    this excerpt).  The registry is looked up by the identity (pipeline
    name, pipeline step name, model name); the matches come most recent
    first. *)
Definition same_identity (pn sn mn : string) (sc : KServeDeploymentConfig)
    : bool :=
  String.eqb sc.(pipeline_name) pn && String.eqb sc.(pipeline_step_name) sn
  && String.eqb sc.(model_name) mn.

Definition find_model_server (pn sn mn : string)
    : M (list KServeDeploymentService) :=
  log (EvFind pn sn mn) ;;;
  s <- get_state ;;
  ret (filter (fun x => same_identity pn sn mn x.(svc_config)) s.(registry)).

(** Modelled from the spec: KServeDeploymentService.start (not in this
    excerpt).  It contacts the serving platform, fails with a
    DeploymentError when the platform rejects the call, and otherwise
    leaves the service running. *)
Definition mark_running (uuid : nat) (x : KServeDeploymentService)
    : KServeDeploymentService :=
  if Nat.eqb x.(svc_uuid) uuid then mkService x.(svc_uuid) x.(svc_config) true
  else x.

Definition service_start (service : KServeDeploymentService) (t : Z)
    : M KServeDeploymentService :=
  log (EvStart service.(svc_uuid) t) ;;;
  s <- get_state ;;
  if s.(platform_ok) then
    put_registry (map (mark_running service.(svc_uuid)) s.(registry))
      s.(next_uuid) ;;;
    ret (mark_running service.(svc_uuid) service)
  else raise (DeploymentError "start failed").

(** Modelled from the spec: KServeModelDeployer.deploy_model (not in this
    excerpt).  It creates a new running service for the configuration or,
    with replace, replaces the ones of the same identity; it fails with a
    DeploymentError when the platform rejects the call. *)
Definition deploy_model (sc : KServeDeploymentConfig) (replace : bool) (t : Z)
    : M KServeDeploymentService :=
  log (EvDeploy sc replace t) ;;;
  s <- get_state ;;
  if s.(platform_ok) then
    let service := mkService s.(next_uuid) sc true in
    let kept := if replace then
                  filter (fun x => negb (same_identity sc.(pipeline_name)
                                    sc.(pipeline_step_name) sc.(model_name)
                                    x.(svc_config))) s.(registry)
                else s.(registry) in
    put_registry (service :: kept) (S s.(next_uuid)) ;;;
    ret service
  else raise (DeploymentError "deployment failed").

(** Modelled from the spec: KServeModelDeployer.prepare_custom_deployment_image
    (not in this excerpt): builds the custom image externally and returns
    its name. *)
Definition prepare_custom_deployment_image (pn sn : string)
    (reqs entrypoint : list string) : M string :=
  log (EvPrepareImage pn sn reqs entrypoint) ;;;
  s <- get_state ;;
  ret s.(built_image).

(** Modelled from the spec: prepare_service_config,
    prepare_torch_service_config and prepare_custom_service_config of
    kserve_step_utils (not in this excerpt), the ServiceConfigBuilder.
    The built configuration is the step's service configuration (with the
    pipeline identity already populated) for the model at
    [model_artifact_uri] (the step's model.uri),
    without a container spec. *)
Definition build_service_config (model_artifact_uri output_artifact_uri : string)
    (config : KServeDeployerStepConfig) : KServeDeploymentConfig :=
  set_containers (set_model_uri config.(service_config) model_artifact_uri) None.

Definition prepare_service_config := build_service_config.
Definition prepare_torch_service_config := build_service_config.
Definition prepare_custom_service_config := build_service_config.

(** ** The deployer steps (kserve_deployer.py) *)

(** Lines 251-254 / 361-364: write the runtime pipeline identity into the
    caller's service configuration. *)
Definition update_runtime_identity (env : StepEnvironment) : M unit :=
  config <- get_cfg ;;
  put_cfg (set_service_config config
             (set_pipeline_identity config.(service_config)
                env.(se_pipeline_name) env.(se_pipeline_run_id)
                env.(se_step_name))).

(** Lines 274-280 / 383-389: reuse the most recent existing service. *)
Definition reuse_service (service : KServeDeploymentService) (t : Z)
    : M KServeDeploymentService :=
  if negb service.(is_running) then service_start service t
  else ret service.

Definition kserve_model_deployer_step (deploy_decision : bool)
    (env : StepEnvironment) (model_artifact_uri output_artifact_uri : string)
    : M KServeDeploymentService :=
  update_runtime_identity env ;;;
  config <- get_cfg ;;
  existing_services <- find_model_server env.(se_pipeline_name)
                         env.(se_step_name)
                         config.(service_config).(model_name) ;;
  match deploy_decision, existing_services with
  | false, service :: _ => reuse_service service config.(timeout)
  | _, _ =>
      let service_config :=
        if String.eqb config.(service_config).(predictor) "pytorch"
        then prepare_torch_service_config model_artifact_uri output_artifact_uri config
        else prepare_service_config model_artifact_uri output_artifact_uri config in
      deploy_model service_config true config.(timeout)
  end.

Definition entrypoint_command (config : KServeDeployerStepConfig)
    (cdp : CustomDeployParamters) : list string :=
  [ "python"; "-m";
    "zenml.integrations.kserve.custom_deployer.zenml_custom_model";
    "--model_name"; config.(service_config).(model_name);
    "--predict_func"; cdp.(predict_function) ].

Definition kserve_custom_model_deployer_step (deploy_decision : bool)
    (env : StepEnvironment) (model_artifact_uri output_artifact_uri : string)
    : M KServeDeploymentService :=
  config0 <- get_cfg ;;
  match config0.(custom_deploy_paramters) with
  | None => raise (ValueError "Custom deploy paramters are required.")
  | Some cdp =>
    update_runtime_identity env ;;;
    config <- get_cfg ;;
    existing_services <- find_model_server env.(se_pipeline_name)
                           env.(se_step_name)
                           config.(service_config).(model_name) ;;
    match deploy_decision, existing_services with
    | false, service :: _ => reuse_service service config.(timeout)
    | _, _ =>
        let cmd := entrypoint_command config cdp in
        custom_docker_image_name <- prepare_custom_deployment_image
                                      env.(se_pipeline_name) env.(se_step_name)
                                      env.(se_pipeline_requirements) cmd ;;
        let sc := prepare_custom_service_config model_artifact_uri output_artifact_uri
                    config in
        let sc := set_containers sc
                    (Some (mkContainerSpec sc.(model_name)
                             custom_docker_image_name cmd sc.(model_uri))) in
        deploy_model sc true config.(timeout)
    end
  end.

(** ** Python values and objects used by the validators and the model
    server *)
Inductive pyval : Type :=
| PNone
| PInt (z : Z)
| PStr (s : string)
| PList (l : list pyval)
| PDict (items : list (string * pyval)).

(** What a dotted path resolves to: a plain value or a callable. *)
Inductive pyobj : Type :=
| PyValue (v : pyval)
| PyCallable (f : pyval -> exc + pyval).

Definition is_mapping (v : pyval) : bool :=
  match v with PDict _ => true | _ => false end.

(** Sequencing of Python code that may raise, without state. *)
Definition ebind {A B} (r : exc + A) (k : A -> exc + B) : exc + B :=
  match r with inl e => inl e | inr a => k a end.

(** os.path.join with two arguments (POSIX). *)
Definition ends_with_sep (a : string) : bool :=
  match rev (list_ascii_of_string a) with
  | "/"%char :: _ => true
  | _ => false
  end.

Definition os_path_join (a b : string) : string :=
  if String.prefix "/" b then b
  else if String.eqb a "" || ends_with_sep a then a ++ b
  else a ++ "/" ++ b.

(** pydantic (v1) model construction from its field validators: the
    ValueErrors of all validators are collected into one ValidationError;
    any other exception propagates. *)
Definition value_errors {A} (r : exc + A) : list string :=
  match r with inl (ValueError m) => [m] | _ => [] end.

Definition other_error {A} (r : exc + A) : option exc :=
  match r with
  | inl (ValueError _) => None
  | inl e => Some e
  | inr _ => None
  end.

(** ** CustomDeployParamters (lines 173-201) *)
Section CustomDeployParamtersValidation.

(** zenml.utils.source_utils.import_class_by_path: resolves a dotted path
    to the object it names, raising as Python's import and getattr do. *)
Variable import_class_by_path : string -> exc + pyobj.

Definition predict_function_validate (v : string) : exc + string :=
  if String.eqb v "" then inl (ValueError "Predict function path is required.")
  else match import_class_by_path v with
       | inl (AttributeError _) => inl (ValueError "Predict function can't be found.")
       | inl e => inl e
       | inr _ => inr v
       end.

(** CustomDeployParamters(predict_function=v) *)
Definition construct_CustomDeployParamters (v : string)
    : exc + CustomDeployParamters :=
  let r := predict_function_validate v in
  match other_error r with
  | Some e => inl e
  | None =>
      match r with
      | inr v' => inr (mkCustomDeployParamters v')
      | inl _ => inl (ValidationError (value_errors r))
      end
  end.

End CustomDeployParamtersValidation.

(** ** TorchServeParamters (lines 46-170) *)
Definition TORCH_HANDLERS : list string :=
  ["image_classifier"; "image_segmenter"; "object_detector";
   "text_classifier"].

Section TorchServeParamtersValidation.

(** zenml.utils.source_utils.is_inside_repository and get_source_root_path *)
Variable is_inside_repository : string -> bool.
Variable source_root : string.

Definition model_class_validate (v : string) : exc + string :=
  if String.eqb v "" then inl (ValueError "Model class file path is required.")
  else if negb (is_inside_repository v) then
    inl (ValueError "Model class file path must be inside the repository.")
  else inr (os_path_join source_root v).

Definition handler_validate (v : string) : exc + string :=
  if negb (String.eqb v "") then
    if existsb (String.eqb v) TORCH_HANDLERS then inr v
    else if is_inside_repository v then inr (os_path_join source_root v)
    else inl (ValueError "Handler must be one of the TorchServe handlers")
  else inl (ValueError "Handler is required.").

Fixpoint extra_files_loop (v : list string) : exc + list string :=
  match v with
  | [] => inr []
  | file_path :: rest =>
      if is_inside_repository file_path then
        ebind (extra_files_loop rest)
          (fun l => inr (os_path_join source_root file_path :: l))
      else inl (ValueError "Extra file path must be inside the repository.")
  end.

Definition extra_files_validate (v : option (list string))
    : exc + option (list string) :=
  match v with
  | Some l => ebind (extra_files_loop l) (fun l' => inr (Some l'))
  | None => inr None
  end.

Definition torch_config_validate (v : option string) : exc + option string :=
  match v with
  | Some x =>
      if negb (String.eqb x "") then
        if is_inside_repository x then inr (Some (os_path_join source_root x))
        else inl (ValueError "Torch config file path must be inside the repository.")
      else inr v
  | None => inr v
  end.

(** TorchServeParamters(...) from the raw fields: every validator runs, the ValueErrors are
    collected (none of these validators raises anything else). *)
Definition construct_TorchServeParamters (raw : TorchServeParamters)
    : exc + TorchServeParamters :=
  let r1 := model_class_validate raw.(model_class) in
  let r2 := handler_validate raw.(handler) in
  let r3 := extra_files_validate raw.(extra_files) in
  let r4 := torch_config_validate raw.(torch_config) in
  match r1, r2, r3, r4 with
  | inr mc, inr h, inr ef, inr tc =>
      inr (mkTorchServeParamters mc h ef raw.(requirements_file)
             raw.(model_version) tc)
  | _, _, _, _ =>
      inl (ValidationError (value_errors r1 ++ value_errors r2
                            ++ value_errors r3 ++ value_errors r4))
  end.

End TorchServeParamtersValidation.

(** ** ZenMLCustomModel (zenml_custom_model.py) *)
Definition ARTIFACT_FILE : string := "artifact.json".

(** The instance attributes of a ZenMLCustomModel. An attribute the object
    may lack is an option: model_dir is None while no code has assigned
    it (neither __init__ nor kserve.Model.__init__(name) assigns it).
    cm_model_uri is self.model_uri. *)
Record ZenMLCustomModel : Type := mkZenMLCustomModel {
  name : string;
  cm_model_uri : string;
  model_dir : option string;
  predict_func : option (pyval -> exc + pyval);
  model : option pyval;
  ready : bool
}.

Definition set_loaded (self : ZenMLCustomModel) (m : pyval) : ZenMLCustomModel :=
  mkZenMLCustomModel self.(name) self.(cm_model_uri) self.(model_dir)
    self.(predict_func) (Some m) self.(ready).

Definition set_ready (self : ZenMLCustomModel) : ZenMLCustomModel :=
  mkZenMLCustomModel self.(name) self.(cm_model_uri) self.(model_dir)
    self.(predict_func) self.(model) true.

Definition exc_message (e : exc) : string :=
  match e with
  | ValueError m | AttributeError m | ModuleNotFoundError m
  | NotImplementedError m | Exception_ m | DeploymentError m
  | TypeError m => m
  | KeyError k => k
  | ValidationError _ => "validation error"
  end.

(** The object stored in self.predict_func, as predict calls it: None is
    None, a callable is called, any other object raises TypeError when
    called. *)
Definition predict_func_of (o : pyobj) : option (pyval -> exc + pyval) :=
  match o with
  | PyCallable f => Some f
  | PyValue PNone => None
  | PyValue _ => Some (fun _ => inl (TypeError "object is not callable"))
  end.

(** artifact[k] on the value json.load returned (a JSON object is a dict
    with distinct keys). *)
Definition py_getitem (d : pyval) (k : string) : exc + pyval :=
  match d with
  | PDict items =>
      match find (fun kv => String.eqb (fst kv) k) items with
      | Some kv => inr (snd kv)
      | None => inl (KeyError k)
      end
  | PList _ => inl (TypeError "list indices must be integers or slices, not str")
  | PStr _ => inl (TypeError "string indices must be integers")
  | PInt _ => inl (TypeError "'int' object is not subscriptable")
  | PNone => inl (TypeError "'NoneType' object is not subscriptable")
  end.

(** model_artifact.properties[...].string_value = v: the protobuf string
    field accepts a str only (JSON yields no bytes). *)
Definition set_string_value (v : pyval) : exc + string :=
  match v with
  | PStr s => inr s
  | _ => inl (TypeError "bad argument type for string_value field")
  end.

Section CustomModelServer.

(** zenml.utils.source_utils.import_class_by_path *)
Variable import_class_by_path : string -> exc + pyobj.
(** kserve.Storage.download(uri, name): fetches the model files. *)
Variable download : string -> string -> exc + string.
(** open(path) followed by json.load *)
Variable read_json : string -> exc + pyval.
(** source_utils.load_source_path_class *)
Variable load_source_path_class : string -> exc + pyobj.
(** materializer_class(model_artifact).handle_input(model_class, ...), the
    artifact's uri being the model directory *)
Variable handle_input : pyobj -> string -> pyobj -> exc + pyval.

(** __init__ (lines 33-44) *)
Definition ZenMLCustomModel_init (model_name model_uri predict_func : string)
    : exc + ZenMLCustomModel :=
  ebind (import_class_by_path predict_func) (fun f =>
  inr (mkZenMLCustomModel model_name model_uri None (predict_func_of f)
         None false)).

(** _load_model_with_zenml_artifact (lines 76-96). In each assignment
    the right-hand side artifact[...] is evaluated before the string_value
    assignment. *)
Definition _load_model_with_zenml_artifact (model_file_dir : string)
    : exc + pyval :=
  ebind (read_json (os_path_join model_file_dir ARTIFACT_FILE)) (fun artifact =>
  ebind (py_getitem artifact "datatype") (fun v1 =>
  ebind (set_string_value v1) (fun datatype =>
  ebind (py_getitem artifact "materializer") (fun v2 =>
  ebind (set_string_value v2) (fun materializer =>
  ebind (load_source_path_class materializer) (fun materializer_class =>
  ebind (load_source_path_class datatype) (fun model_class =>
  handle_input materializer_class model_file_dir model_class))))))).

Definition no_model_dir : exc :=
  AttributeError "'ZenMLCustomModel' object has no attribute 'model_dir'".

(** load (lines 46-56): the result is the exception raised out of load, or
    the returned boolean with the updated object. Line 47 reads
    self.model_dir and downloads, both outside the try. *)
Definition load (self : ZenMLCustomModel) : exc + (bool * ZenMLCustomModel) :=
  match self.(model_dir) with
  | None => inl no_model_dir
  | Some model_dir =>
      ebind (download model_dir self.(name)) (fun model_file_dir =>
      match _load_model_with_zenml_artifact model_file_dir with
      | inl _ => inr (false, self)
      | inr m => let self := set_ready (set_loaded self m) in
                 inr (self.(ready), self)
      end)
  end.

End CustomModelServer.

(** predict (lines 58-74) *)
Definition predict (self : ZenMLCustomModel) (request : pyval) : exc + pyval :=
  match self.(predict_func) with
  | Some f =>
      match f request with
      | inl e => inl (Exception_ ("Failed to predict: " ++ exc_message e))
      | inr prediction => inr prediction
      end
  | None => inl (NotImplementedError "Predict function is not implemented")
  end.

(** ** Concrete runs *)
Definition sc0 : KServeDeploymentConfig :=
  mkServiceConfig "fraud-model" "" "sklearn" [("cpu", "100m")] 1
    "" "" "" None.
Definition cfg0 : KServeDeployerStepConfig :=
  mkStepConfig sc0 None (Some (mkCustomDeployParamters "pkg.mod.predict")) 300.
Definition env0 : StepEnvironment :=
  mkStepEnvironment "fraud-pipe" "run-7" "eval_step" ["scikit-learn"].
Definition st0 : St := mkSt cfg0 [] 0 true "zenml/custom:1" [].

Example fraud_pipe_fallback_create :
  fst (kserve_model_deployer_step false env0 "s3://m/1" "s3://o/1" st0)
  = inr (mkService 0 (mkServiceConfig "fraud-model" "s3://m/1" "sklearn"
           [("cpu", "100m")] 1 "fraud-pipe" "run-7" "eval_step" None) true).
Proof. reflexivity. Qed.

Example fraud_pipe_second_run_reuses :
  let s1 := snd (kserve_model_deployer_step false env0 "s3://m/1" "s3://o/1" st0) in
  fst (kserve_model_deployer_step false env0 "s3://m/2" "s3://o/2" s1)
  = fst (kserve_model_deployer_step false env0 "s3://m/1" "s3://o/1" st0).
Proof. reflexivity. Qed.

(** ** Proof support *)
Create HintDb kserve.

Ltac run_step :=
  unfold kserve_model_deployer_step, kserve_custom_model_deployer_step,
    update_runtime_identity, reuse_service, find_model_server,
    service_start, deploy_model, prepare_custom_deployment_image,
    get_cfg, put_cfg, log, put_registry, get_state, bind, ret, raise,
    prepare_service_config, prepare_torch_service_config,
    prepare_custom_service_config, build_service_config;
  cbn -[app].

Ltac trace_eq := rewrite <- ?app_assoc; reflexivity.

Ltac close_goal :=
  repeat match goal with
         | |- _ /\ _ => split
         | |- exists m, DeploymentError _ = DeploymentError m => eexists; reflexivity
         | |- In ?x (?x :: _) => left; reflexivity
         | |- ?x = ?x \/ _ => left; reflexivity
         | |- same_identity _ _ _ _ = true =>
             unfold same_identity; cbn; rewrite ?String.eqb_refl; reflexivity
         end; try reflexivity.

Lemma same_identity_refl (sc : KServeDeploymentConfig) :
  same_identity sc.(pipeline_name) sc.(pipeline_step_name) sc.(model_name) sc
  = true.
Proof. unfold same_identity; now rewrite !String.eqb_refl. Qed.
#[local] Hint Resolve same_identity_refl : kserve.

(** The lookup the steps perform, on the registry of [s]. *)
Definition lookup (env : StepEnvironment) (s : St)
    : list KServeDeploymentService :=
  filter (fun x => same_identity env.(se_pipeline_name) env.(se_step_name)
                     s.(cfg).(service_config).(model_name) x.(svc_config))
    s.(registry).

(** ** C1 *)

(** C1: with deploy_decision = false and no existing service for the
    identity, kserve_model_deployer_step falls through to the deploy path:
    it calls deploy_model once with replace = true, and when it returns a
    service, that service is running, registered, and has the identity of
    the invocation (otherwise it raises the platform's DeploymentError). *)
Theorem model_step_no_existing_still_deploys (env : StepEnvironment)
    (model_uri_ output_uri : string) (s : St) :
  lookup env s = [] ->
  let '(r, s') := kserve_model_deployer_step false env model_uri_ output_uri s in
  (exists c, trace s' = (trace s ++
     [EvFind env.(se_pipeline_name) env.(se_step_name)
        s.(cfg).(service_config).(model_name);
      EvDeploy c true s.(cfg).(timeout)])%list) /\
  match r with
  | inr svc =>
      is_running svc = true /\ In svc (registry s') /\
      same_identity env.(se_pipeline_name) env.(se_step_name)
        s.(cfg).(service_config).(model_name) svc.(svc_config) = true
  | inl e => exists m, e = DeploymentError m
  end.
Proof.
  unfold lookup; intros Hnone; run_step.
  rewrite Hnone.
  destruct (String.eqb _ "pytorch");
  destruct (platform_ok s); cbn -[app]; (split; [eexists; trace_eq|]);
  close_goal.
Qed.

Lemma model_step_no_existing_still_deploys_witness :
  lookup env0 st0 = [] /\
  let '(r, s') := kserve_model_deployer_step false env0 "s3://m/1" "s3://o/1" st0 in
  (exists c, trace s' = (trace st0 ++
     [EvFind env0.(se_pipeline_name) env0.(se_step_name)
        st0.(cfg).(service_config).(model_name);
      EvDeploy c true st0.(cfg).(timeout)])%list) /\
  match r with
  | inr svc =>
      is_running svc = true /\ In svc (registry s') /\
      same_identity env0.(se_pipeline_name) env0.(se_step_name)
        st0.(cfg).(service_config).(model_name) svc.(svc_config) = true
  | inl e => exists m, e = DeploymentError m
  end.
Proof.
  split; [reflexivity|].
  apply (model_step_no_existing_still_deploys env0 "s3://m/1" "s3://o/1" st0).
  reflexivity.
Defined.

(** ** C2 *)

(** What the reuse path does with [service], the first service the lookup
    returned: no deploy call; a running service is returned as it is with
    no start call; a stopped one gets exactly one start call with the
    configured timeout, and is returned running (or the platform's
    DeploymentError is raised). *)
Definition reuse_outcome (env : StepEnvironment) (s : St)
    (service : KServeDeploymentService)
    (res : (exc + KServeDeploymentService) * St) : Prop :=
  let '(r, s') := res in
  let find_ev := EvFind env.(se_pipeline_name) env.(se_step_name)
                   s.(cfg).(service_config).(model_name) in
  if is_running service then
    r = inr service /\ trace s' = (trace s ++ [find_ev])%list /\
    registry s' = registry s
  else
    trace s' = (trace s ++ [find_ev;
                 EvStart service.(svc_uuid) s.(cfg).(timeout)])%list /\
    (platform_ok s = true ->
       r = inr (mkService service.(svc_uuid) service.(svc_config) true)) /\
    (platform_ok s = false -> exists m, r = inl (DeploymentError m)).

Lemma mark_running_self (service : KServeDeploymentService) :
  mark_running service.(svc_uuid) service
  = mkService service.(svc_uuid) service.(svc_config) true.
Proof. unfold mark_running; now rewrite Nat.eqb_refl. Qed.

Ltac reuse_tac :=
  unfold reuse_outcome;
  match goal with
  | |- context [is_running ?sv] =>
      destruct (is_running sv); cbn -[app];
      [ repeat split; reflexivity
      | destruct (platform_ok _) eqn:Hok; cbn -[app];
        (split; [trace_eq|]);
        split; intro Hp; try discriminate;
        [ rewrite mark_running_self; reflexivity | eexists; reflexivity ] ]
  end.

(** C2: with deploy_decision = false and at least one existing service for
    the identity, both deployer steps take the first (most recent) service
    the lookup returns and return it without calling deploy: unchanged and
    with no start call when it is running, after exactly one
    start(timeout) call when it is not. *)
Theorem steps_reuse_first_existing (env : StepEnvironment)
    (model_uri_ output_uri : string) (s : St)
    (service : KServeDeploymentService) (rest : list KServeDeploymentService) :
  lookup env s = service :: rest ->
  reuse_outcome env s service
    (kserve_model_deployer_step false env model_uri_ output_uri s) /\
  (s.(cfg).(custom_deploy_paramters) <> None ->
   reuse_outcome env s service
     (kserve_custom_model_deployer_step false env model_uri_ output_uri s)).
Proof.
  unfold lookup; intros Hfound; split.
  - run_step. rewrite Hfound. reuse_tac.
  - intros Hcdp. run_step.
    destruct (custom_deploy_paramters (cfg s)) as [cdp|];
      [|contradiction]; cbn -[app].
    rewrite Hfound. reuse_tac.
Qed.

Definition svc_stopped : KServeDeploymentService :=
  mkService 4 (mkServiceConfig "fraud-model" "s3://m/0" "sklearn" [] 1
                 "fraud-pipe" "run-6" "eval_step" None) false.
Definition st1 : St := mkSt cfg0 [svc_stopped] 5 true "zenml/custom:1" [].

Lemma steps_reuse_first_existing_witness :
  lookup env0 st1 = [svc_stopped] /\
  reuse_outcome env0 st1 svc_stopped
    (kserve_model_deployer_step false env0 "s3://m/1" "s3://o/1" st1) /\
  (st1.(cfg).(custom_deploy_paramters) <> None ->
   reuse_outcome env0 st1 svc_stopped
     (kserve_custom_model_deployer_step false env0 "s3://m/1" "s3://o/1" st1)).
Proof.
  split; [reflexivity|].
  apply (steps_reuse_first_existing env0 "s3://m/1" "s3://o/1" st1 svc_stopped []).
  reflexivity.
Defined.

(** ** C3 *)

(** What the deploy path does: after the lookup (and the calls in [pre]),
    exactly one deploy call with replace = true and the configured timeout,
    on a configuration [c] carrying the invocation's identity; a service
    returned is the one deployed with [c]. *)
Definition deploy_outcome (env : StepEnvironment) (s : St) (pre : list Event)
    (res : (exc + KServeDeploymentService) * St) : Prop :=
  let '(r, s') := res in
  exists c,
    trace s' = (trace s ++
      [EvFind env.(se_pipeline_name) env.(se_step_name)
         s.(cfg).(service_config).(model_name)] ++ pre ++
      [EvDeploy c true s.(cfg).(timeout)])%list /\
    c.(pipeline_name) = env.(se_pipeline_name) /\
    c.(pipeline_run_id) = env.(se_pipeline_run_id) /\
    c.(pipeline_step_name) = env.(se_step_name) /\
    c.(model_name) = s.(cfg).(service_config).(model_name) /\
    (forall svc, r = inr svc -> svc.(svc_config) = c).

Ltac deploy_tac :=
  unfold deploy_outcome;
  destruct (platform_ok _); cbn -[app];
  eexists; (split; [trace_eq|]);
  repeat split; try reflexivity; intros ? Hr; try discriminate;
  injection Hr as <-; reflexivity.

(** C3: with deploy_decision = true, whatever services match the identity,
    both deployer steps build a fresh service configuration and call
    deploy with replace = true and the configured timeout; the pipeline
    name, run id, step name and model name of the configuration passed to
    deploy are those of the invocation. *)
Theorem steps_deploy_decision_true (env : StepEnvironment)
    (model_uri_ output_uri : string) (s : St) :
  deploy_outcome env s []
    (kserve_model_deployer_step true env model_uri_ output_uri s) /\
  (s.(cfg).(custom_deploy_paramters) <> None ->
   exists cmd,
     deploy_outcome env s
       [EvPrepareImage env.(se_pipeline_name) env.(se_step_name)
          env.(se_pipeline_requirements) cmd]
       (kserve_custom_model_deployer_step true env model_uri_ output_uri s)).
Proof.
  split.
  - run_step. destruct (String.eqb _ "pytorch"); deploy_tac.
  - intros Hcdp. run_step.
    destruct (custom_deploy_paramters (cfg s)) as [cdp|];
      [|contradiction]; cbn -[app].
    eexists. deploy_tac.
Qed.

Lemma steps_deploy_decision_true_witness :
  (cfg st1).(custom_deploy_paramters) <> None /\
  exists cmd,
    deploy_outcome env0 st1
      [EvPrepareImage env0.(se_pipeline_name) env0.(se_step_name)
         env0.(se_pipeline_requirements) cmd]
      (kserve_custom_model_deployer_step true env0 "s3://m/1" "s3://o/1" st1).
Proof.
  split; [discriminate|].
  apply (steps_deploy_decision_true env0 "s3://m/1" "s3://o/1" st1).
  discriminate.
Defined.

(** ** C5 *)

(** C5: on the deploy path of the custom step, the configuration passed to
    deploy carries the container spec {name: the configuration's
    model_name, image: the externally built image, command: the fixed
    entrypoint list, storage_uri: the configuration's model_uri}; the same
    entrypoint list is handed to the image builder. *)
Theorem custom_step_container_spec (deploy_decision : bool)
    (env : StepEnvironment) (model_uri_ output_uri : string) (s : St)
    (p : CustomDeployParamters) :
  s.(cfg).(custom_deploy_paramters) = Some p ->
  deploy_decision = true \/ lookup env s = [] ->
  let cmd := [ "python"; "-m";
               "zenml.integrations.kserve.custom_deployer.zenml_custom_model";
               "--model_name"; s.(cfg).(service_config).(model_name);
               "--predict_func"; p.(predict_function) ] in
  let '(r, s') :=
    kserve_custom_model_deployer_step deploy_decision env model_uri_
      output_uri s in
  exists c,
    trace s' = (trace s ++
      [EvFind env.(se_pipeline_name) env.(se_step_name)
         s.(cfg).(service_config).(model_name);
       EvPrepareImage env.(se_pipeline_name) env.(se_step_name)
         env.(se_pipeline_requirements) cmd;
       EvDeploy c true s.(cfg).(timeout)])%list /\
    c.(containers) =
      Some (mkContainerSpec c.(model_name) s.(built_image) cmd c.(model_uri)) /\
    c.(model_name) = s.(cfg).(service_config).(model_name) /\
    c.(model_uri) = model_uri_.
Proof.
  unfold lookup; intros Hp Hpath; run_step.
  rewrite Hp; cbn -[app].
  destruct Hpath as [-> | Hnil];
    [| destruct deploy_decision; [| rewrite Hnil]]; cbn -[app];
  destruct (platform_ok s); cbn -[app]; eexists; (split; [trace_eq|]);
    repeat split.
Qed.

Lemma custom_step_container_spec_witness :
  (cfg st1).(custom_deploy_paramters) = Some (mkCustomDeployParamters "pkg.mod.predict") /\
  (true = true \/ lookup env0 st1 = []) /\
  let cmd := [ "python"; "-m";
               "zenml.integrations.kserve.custom_deployer.zenml_custom_model";
               "--model_name"; st1.(cfg).(service_config).(model_name);
               "--predict_func"; "pkg.mod.predict" ] in
  let '(r, s') :=
    kserve_custom_model_deployer_step true env0 "s3://m/1" "s3://o/1" st1 in
  exists c,
    trace s' = (trace st1 ++
      [EvFind env0.(se_pipeline_name) env0.(se_step_name)
         st1.(cfg).(service_config).(model_name);
       EvPrepareImage env0.(se_pipeline_name) env0.(se_step_name)
         env0.(se_pipeline_requirements) cmd;
       EvDeploy c true st1.(cfg).(timeout)])%list /\
    c.(containers) =
      Some (mkContainerSpec c.(model_name) st1.(built_image) cmd c.(model_uri)) /\
    c.(model_name) = st1.(cfg).(service_config).(model_name) /\
    c.(model_uri) = "s3://m/1".
Proof.
  split; [reflexivity|]. split; [left; reflexivity|].
  apply (custom_step_container_spec true env0 "s3://m/1" "s3://o/1" st1
           (mkCustomDeployParamters "pkg.mod.predict")).
  - reflexivity.
  - left; reflexivity.
Defined.

(** ** C9 *)

(** The caller's service configuration carries the runtime identity. *)
Definition runtime_identity_written (env : StepEnvironment) (s' : St) : Prop :=
  s'.(cfg).(service_config).(pipeline_name) = env.(se_pipeline_name) /\
  s'.(cfg).(service_config).(pipeline_run_id) = env.(se_pipeline_run_id) /\
  s'.(cfg).(service_config).(pipeline_step_name) = env.(se_step_name).

(** The caller's configuration with only the runtime identity rewritten. *)
Definition with_runtime_identity (env : StepEnvironment)
    (c : KServeDeployerStepConfig) : KServeDeployerStepConfig :=
  set_service_config c
    (set_pipeline_identity c.(service_config) env.(se_pipeline_name)
       env.(se_pipeline_run_id) env.(se_step_name)).

Ltac split_all_matches :=
  repeat match goal with
         | |- context [match ?x with _ => _ end] =>
             lazymatch x with
             | cfg _ => fail
             | _ => destruct x
             end
         | |- context [if ?x then _ else _] => destruct x
         end.

(** C9: both deployer steps write the runtime pipeline name, run id and
    step name into the caller's service configuration on every invocation
    (whichever path is taken, also when the platform then raises); on the
    reuse path nothing else of the caller's configuration changes. *)
Theorem steps_overwrite_runtime_identity (deploy_decision : bool)
    (env : StepEnvironment) (model_uri_ output_uri : string) (s : St) :
  runtime_identity_written env
    (snd (kserve_model_deployer_step deploy_decision env model_uri_
            output_uri s)) /\
  (deploy_decision = false -> lookup env s <> [] ->
   cfg (snd (kserve_model_deployer_step deploy_decision env model_uri_
               output_uri s)) = with_runtime_identity env s.(cfg)) /\
  (s.(cfg).(custom_deploy_paramters) <> None ->
   runtime_identity_written env
     (snd (kserve_custom_model_deployer_step deploy_decision env model_uri_
             output_uri s)) /\
   (deploy_decision = false -> lookup env s <> [] ->
    cfg (snd (kserve_custom_model_deployer_step deploy_decision env
                model_uri_ output_uri s)) = with_runtime_identity env s.(cfg))).
Proof.
  unfold runtime_identity_written, with_runtime_identity, lookup.
  split; [|split].
  - run_step. split_all_matches; cbn; repeat split.
  - intros -> Hne. run_step.
    destruct (filter _ (registry s)); [contradiction|].
    split_all_matches; reflexivity.
  - intros Hcdp. run_step.
    destruct (custom_deploy_paramters (cfg s)); [|contradiction]; cbn -[app].
    split.
    + split_all_matches; cbn; repeat split.
    + intros -> Hne.
      destruct (filter _ (registry s)); [contradiction|].
      split_all_matches; reflexivity.
Qed.

Lemma steps_overwrite_runtime_identity_witness :
  runtime_identity_written env0
    (snd (kserve_model_deployer_step false env0 "s3://m/1" "s3://o/1" st1)) /\
  (false = false -> lookup env0 st1 <> [] ->
   cfg (snd (kserve_model_deployer_step false env0 "s3://m/1" "s3://o/1" st1))
   = with_runtime_identity env0 st1.(cfg)) /\
  (st1.(cfg).(custom_deploy_paramters) <> None ->
   runtime_identity_written env0
     (snd (kserve_custom_model_deployer_step false env0 "s3://m/1"
             "s3://o/1" st1)) /\
   (false = false -> lookup env0 st1 <> [] ->
    cfg (snd (kserve_custom_model_deployer_step false env0 "s3://m/1"
                "s3://o/1" st1)) = with_runtime_identity env0 st1.(cfg))).
Proof.
  exact (steps_overwrite_runtime_identity false env0 "s3://m/1" "s3://o/1" st1).
Defined.

(** ** C10 *)

(** C10: when custom_deploy_paramters is None the custom step raises a
    ValueError at once, with the state (caller's configuration, registry,
    call trace) left exactly as it was. *)
Theorem custom_step_requires_custom_params (deploy_decision : bool)
    (env : StepEnvironment) (model_uri_ output_uri : string) (s : St) :
  s.(cfg).(custom_deploy_paramters) = None ->
  kserve_custom_model_deployer_step deploy_decision env model_uri_ output_uri s
  = (inl (ValueError "Custom deploy paramters are required."), s).
Proof.
  intros Hnone. unfold kserve_custom_model_deployer_step, bind, get_cfg.
  rewrite Hnone. reflexivity.
Qed.

Definition st_no_params : St :=
  mkSt (mkStepConfig sc0 None None 300) [svc_stopped] 5 true "zenml/custom:1" [].

Lemma custom_step_requires_custom_params_witness :
  st_no_params.(cfg).(custom_deploy_paramters) = None /\
  kserve_custom_model_deployer_step true env0 "s3://m/1" "s3://o/1" st_no_params
  = (inl (ValueError "Custom deploy paramters are required."), st_no_params).
Proof.
  split; [reflexivity|].
  apply custom_step_requires_custom_params. reflexivity.
Defined.

(** ** C4 *)

Definition is_validation_error {A} (r : exc + A) : bool :=
  match r with inl (ValidationError _) => true | _ => false end.

Definition resolves_to_callable (import_class_by_path : string -> exc + pyobj)
    (v : string) : bool :=
  match import_class_by_path v with inr (PyCallable _) => true | _ => false end.

(** C4 as the spec states it: a validation error exactly when the
    reference is empty or does not resolve to a callable. *)
Definition predict_function_check_as_stated
    (import_class_by_path : string -> exc + pyobj) : Prop :=
  forall v,
    is_validation_error (construct_CustomDeployParamters import_class_by_path v)
    = true <-> (v = "" \/ resolves_to_callable import_class_by_path v = false).

(** An environment with a module pkg.mod holding a predict function and a
    constant, and no other module. *)
Definition import_env0 (p : string) : exc + pyobj :=
  if String.eqb p "pkg.mod.predict" then
    inr (PyCallable (fun _ => inr (PDict [("predictions", PList [])])))
  else if String.eqb p "pkg.mod.THRESHOLD" then inr (PyValue (PInt 3))
  else if String.prefix "pkg.mod." p then
    inl (AttributeError "module 'pkg.mod' has no attribute")
  else inl (ModuleNotFoundError "No module named").

Example nonexistent_fn_rejected :
  construct_CustomDeployParamters import_env0 "pkg.mod.nonexistent_fn"
  = inl (ValidationError ["Predict function can't be found."]).
Proof. reflexivity. Qed.

Example missing_module_propagates :
  construct_CustomDeployParamters import_env0 "pkg2.mod.predict"
  = inl (ModuleNotFoundError "No module named").
Proof. reflexivity. Qed.

(** C4 (as stated) fails: pkg.mod.THRESHOLD names an integer, not a
    callable, and the parameters are still constructed. *)
Lemma predict_function_check_counterexample :
  ~ predict_function_check_as_stated import_env0.
Proof.
  unfold predict_function_check_as_stated; intros H.
  destruct (H "pkg.mod.THRESHOLD") as [_ Hback].
  specialize (Hback (or_intror eq_refl)).
  vm_compute in Hback. discriminate.
Qed.

(** C4 (amended): constructing CustomDeployParamters is a pure check (no
    registry call): it fails with a validation error when the reference is
    empty or its lookup raises AttributeError, and succeeds, keeping the
    reference, whenever the reference resolves to some object, callable or
    not. *)
Theorem predict_function_check_amended
    (import_class_by_path : string -> exc + pyobj) (v : string) :
  ((v = "" \/ exists m, import_class_by_path v = inl (AttributeError m)) ->
   exists msgs,
     construct_CustomDeployParamters import_class_by_path v
     = inl (ValidationError msgs)) /\
  (forall o, v <> "" -> import_class_by_path v = inr o ->
   construct_CustomDeployParamters import_class_by_path v
   = inr (mkCustomDeployParamters v)).
Proof.
  unfold construct_CustomDeployParamters, predict_function_validate.
  split.
  - intros [-> | [m Hm]]; [eexists; reflexivity|].
    destruct (String.eqb v "") eqn:He; [eexists; reflexivity|].
    rewrite Hm. eexists; reflexivity.
  - intros o Hne Ho.
    destruct (String.eqb v "") eqn:He.
    + apply String.eqb_eq in He; contradiction.
    + rewrite Ho. reflexivity.
Qed.

Lemma predict_function_check_amended_witness :
  ((("" = "" \/ exists m, import_env0 "" = inl (AttributeError m)) ->
   exists msgs,
     construct_CustomDeployParamters import_env0 ""
     = inl (ValidationError msgs)) /\
  (forall o, "" <> "" -> import_env0 "" = inr o ->
   construct_CustomDeployParamters import_env0 ""
   = inr (mkCustomDeployParamters ""))) /\
  ((("pkg.mod.THRESHOLD" = "" \/ exists m, import_env0 "pkg.mod.THRESHOLD" = inl (AttributeError m)) ->
   exists msgs,
     construct_CustomDeployParamters import_env0 "pkg.mod.THRESHOLD"
     = inl (ValidationError msgs)) /\
  (forall o, "pkg.mod.THRESHOLD" <> "" -> import_env0 "pkg.mod.THRESHOLD" = inr o ->
   construct_CustomDeployParamters import_env0 "pkg.mod.THRESHOLD"
   = inr (mkCustomDeployParamters "pkg.mod.THRESHOLD"))).
Proof.
  split.
  - apply (predict_function_check_amended import_env0 "").
  - apply (predict_function_check_amended import_env0 "pkg.mod.THRESHOLD").
Defined.

(** ** C8 *)

Definition is_prediction_error (r : exc + pyval) : bool :=
  match r with inl (Exception_ _) => true | _ => false end.

(** C8 as the spec states it. *)
Definition predict_contract_as_stated (self : ZenMLCustomModel)
    (request : pyval) : Prop :=
  match self.(predict_func) with
  | None => exists m, predict self request = inl (NotImplementedError m)
  | Some f =>
      match f request with
      | inl _ => is_prediction_error (predict self request) = true
      | inr v =>
          if is_mapping v then predict self request = inr v
          else is_prediction_error (predict self request) = true
      end
  end.

(** A model server whose predict function returns a string label. *)
Definition label_model : ZenMLCustomModel :=
  mkZenMLCustomModel "fraud-model" "gs://bucket/fraud-model" None
    (Some (fun _ => inr (PStr "fraud"))) None true.

(** C8 (as stated) fails: a non-mapping result is returned, not turned
    into a prediction error. *)
Lemma predict_contract_counterexample :
  ~ predict_contract_as_stated label_model (PDict [("instances", PList [])]).
Proof. vm_compute. discriminate. Qed.

(** C8 (amended): predict wraps an exception of the bound predict function
    into a generic "Failed to predict" exception, raises
    NotImplementedError when no predict function is bound, and otherwise
    returns the function's result as it is, mapping or not. *)
Theorem predict_contract_amended (self : ZenMLCustomModel) (request : pyval) :
  match self.(predict_func) with
  | None => predict self request
            = inl (NotImplementedError "Predict function is not implemented")
  | Some f =>
      match f request with
      | inl e => predict self request
                 = inl (Exception_ ("Failed to predict: " ++ exc_message e))
      | inr v => predict self request = inr v
      end
  end.
Proof.
  unfold predict. destruct (predict_func self) as [f|]; [|reflexivity].
  destruct (f request); reflexivity.
Qed.

(** ** C6 *)

Definition is_builtin_handler (h : string) : bool :=
  existsb (String.eqb h) TORCH_HANDLERS.

Definition extra_files_list (ef : option (list string)) : list string :=
  match ef with Some l => l | None => [] end.

(** The fields the spec says must lie inside the project root, read the
    spec's way: some field resolves outside it. *)
Definition torch_path_outside (is_inside_repository : string -> bool)
    (raw : TorchServeParamters) : bool :=
  negb (is_inside_repository raw.(model_class))
  || (negb (is_builtin_handler raw.(handler))
      && negb (is_inside_repository raw.(handler)))
  || existsb (fun f => negb (is_inside_repository f))
       (extra_files_list raw.(extra_files))
  || match raw.(torch_config) with
     | Some x => negb (is_inside_repository x)
     | None => false
     end.

(** Every path field joined onto the source root, built-in handler names
    kept. *)
Definition torch_paths_rooted (source_root : string)
    (raw : TorchServeParamters) : TorchServeParamters :=
  mkTorchServeParamters (os_path_join source_root raw.(model_class))
    (if is_builtin_handler raw.(handler) then raw.(handler)
     else os_path_join source_root raw.(handler))
    (option_map (map (os_path_join source_root)) raw.(extra_files))
    raw.(requirements_file) raw.(model_version)
    (option_map (os_path_join source_root) raw.(torch_config)).

(** C6 as the spec states it. *)
Definition torch_paths_check_as_stated (is_inside_repository : string -> bool)
    (source_root : string) : Prop :=
  forall raw,
    (is_validation_error
       (construct_TorchServeParamters is_inside_repository source_root raw)
     = true <-> torch_path_outside is_inside_repository raw = true) /\
    (torch_path_outside is_inside_repository raw = false ->
     construct_TorchServeParamters is_inside_repository source_root raw
     = inr (torch_paths_rooted source_root raw)).

Definition torch_raw_empty_class : TorchServeParamters :=
  mkTorchServeParamters "" "image_classifier" None None (Some "1.0") None.

(** C6 (as stated) fails: with every path inside the repository, an empty
    model_class is still rejected ("Model class file path is required."). *)
Lemma torch_paths_check_counterexample :
  ~ torch_paths_check_as_stated (fun _ => true) "/repo".
Proof.
  unfold torch_paths_check_as_stated; intros H.
  destruct (H torch_raw_empty_class) as [[Hfwd _] _].
  specialize (Hfwd eq_refl). vm_compute in Hfwd. discriminate.
Qed.

(** What the validators reject: an empty model_class or handler, a
    model_class outside the repository, a handler that is neither built-in
    nor inside, an extra file outside, a non-empty torch_config outside. *)
Definition torch_rejected (is_inside_repository : string -> bool)
    (raw : TorchServeParamters) : bool :=
  String.eqb raw.(model_class) "" || negb (is_inside_repository raw.(model_class))
  || String.eqb raw.(handler) ""
  || (negb (is_builtin_handler raw.(handler))
      && negb (is_inside_repository raw.(handler)))
  || existsb (fun f => negb (is_inside_repository f))
       (extra_files_list raw.(extra_files))
  || match raw.(torch_config) with
     | Some x => negb (String.eqb x "") && negb (is_inside_repository x)
     | None => false
     end.

(** The accepted parameters: paths joined onto the source root, built-in
    handlers kept, an empty torch_config kept as it is. *)
Definition torch_accepted (source_root : string) (raw : TorchServeParamters)
    : TorchServeParamters :=
  mkTorchServeParamters (os_path_join source_root raw.(model_class))
    (if is_builtin_handler raw.(handler) then raw.(handler)
     else os_path_join source_root raw.(handler))
    (option_map (map (os_path_join source_root)) raw.(extra_files))
    raw.(requirements_file) raw.(model_version)
    (option_map (fun x => if String.eqb x "" then x
                          else os_path_join source_root x) raw.(torch_config)).

Lemma extra_files_loop_spec (is_inside_repository : string -> bool)
    (source_root : string) (l : list string) :
  extra_files_loop is_inside_repository source_root l
  = if existsb (fun f => negb (is_inside_repository f)) l
    then inl (ValueError "Extra file path must be inside the repository.")
    else inr (map (os_path_join source_root) l).
Proof.
  induction l as [|f rest IH]; [reflexivity|].
  cbn. destruct (is_inside_repository f); cbn; [|reflexivity].
  rewrite IH. destruct (existsb _ rest); reflexivity.
Qed.

(** C6 (amended): constructing TorchServeParamters fails with a validation
    error exactly in the [torch_rejected] cases and otherwise yields
    [torch_accepted]: every path field joined onto the source root,
    built-in handler names kept, absent fields and an empty torch_config
    kept as they are. *)
Theorem torch_paths_check_amended (is_inside_repository : string -> bool)
    (source_root : string) (raw : TorchServeParamters) :
  match construct_TorchServeParamters is_inside_repository source_root raw with
  | inl (ValidationError _) => torch_rejected is_inside_repository raw = true
  | inl _ => False
  | inr p => torch_rejected is_inside_repository raw = false /\
             p = torch_accepted source_root raw
  end.
Proof.
  destruct raw as [mc h ef rf mv tc].
  unfold construct_TorchServeParamters, torch_rejected, torch_accepted,
    model_class_validate, handler_validate, extra_files_validate,
    torch_config_validate, is_builtin_handler.
  cbn [model_class handler extra_files requirements_file model_version
       torch_config].
  destruct ef as [l|]; [rewrite extra_files_loop_spec|];
  cbn [extra_files_list option_map ebind];
  destruct (String.eqb mc "");
  destruct (is_inside_repository mc);
  destruct (String.eqb h "");
  destruct (existsb (String.eqb h) TORCH_HANDLERS);
  destruct (is_inside_repository h);
  try destruct (existsb (fun f => negb (is_inside_repository f)) l);
  destruct tc as [x|]; cbn;
  try destruct (String.eqb x "");
  try destruct (is_inside_repository x);
  cbn; try reflexivity; try (split; reflexivity).
Qed.

(** ** C7 *)

(** The model server of the example, as main() builds it:
    ZenMLCustomModel("fraud-model", "gs://bucket/fraud-model",
    "pkg.mod.predict"). *)
Definition fraud_server_init : exc + ZenMLCustomModel :=
  ZenMLCustomModel_init import_env0 "fraud-model" "gs://bucket/fraud-model"
    "pkg.mod.predict".

(** The object __init__ returns there. *)
Definition fraud_server : ZenMLCustomModel :=
  mkZenMLCustomModel "fraud-model" "gs://bucket/fraud-model" None
    (Some (fun _ => inr (PDict [("predictions", PList [])]))) None false.

Definition download_unreachable (_ _ : string) : exc + string :=
  inl (Exception_ "storage unreachable").

(** C7 (code): __init__ never assigns self.model_dir, so on every server
    it builds, load raises AttributeError on line 47, outside the try,
    whatever the download, the manifest and the materializer would do:
    load never reaches the fetching and never returns False. *)
Theorem load_raises_attribute_error
    (import_class_by_path : string -> exc + pyobj)
    (download : string -> string -> exc + string)
    (read_json : string -> exc + pyval)
    (load_source_path_class : string -> exc + pyobj)
    (handle_input : pyobj -> string -> pyobj -> exc + pyval)
    (model_name model_uri predict_func : string) (self : ZenMLCustomModel) :
  ZenMLCustomModel_init import_class_by_path model_name model_uri
    predict_func = inr self ->
  self.(model_dir) = None /\
  load download read_json load_source_path_class handle_input self
  = inl no_model_dir.
Proof.
  unfold ZenMLCustomModel_init, ebind.
  destruct (import_class_by_path predict_func) as [e | f]; intros H.
  - discriminate H.
  - injection H as <-. split; reflexivity.
Qed.

Lemma load_raises_attribute_error_witness :
  fraud_server_init = inr fraud_server /\
  fraud_server.(model_dir) = None /\
  load download_unreachable (fun _ => inr (PDict []))
    (fun _ => inl (ModuleNotFoundError "m")) (fun _ _ _ => inr PNone)
    fraud_server
  = inl no_model_dir.
Proof.
  split; [reflexivity|].
  apply (load_raises_attribute_error import_env0 download_unreachable
           (fun _ => inr (PDict [])) (fun _ => inl (ModuleNotFoundError "m"))
           (fun _ _ _ => inr PNone) "fraud-model" "gs://bucket/fraud-model"
           "pkg.mod.predict").
  reflexivity.
Defined.

(** * Further properties of the modelled code *)

(** ** Deployer steps *)

(** X1: on the reuse path (deploy_decision = false, an existing service
    for the identity) the custom step, once its parameters are present,
    behaves exactly as kserve_model_deployer_step: same result, same
    state. *)
Theorem reuse_path_steps_agree (env : StepEnvironment)
    (model_uri_ output_uri : string) (s : St) (p : CustomDeployParamters) :
  s.(cfg).(custom_deploy_paramters) = Some p ->
  lookup env s <> [] ->
  kserve_custom_model_deployer_step false env model_uri_ output_uri s
  = kserve_model_deployer_step false env model_uri_ output_uri s.
Proof.
  unfold lookup; intros Hp Hne. run_step. rewrite Hp; cbn -[app].
  destruct (filter _ (registry s)); [contradiction|reflexivity].
Qed.

Lemma reuse_path_steps_agree_witness :
  st1.(cfg).(custom_deploy_paramters) = Some (mkCustomDeployParamters "pkg.mod.predict") /\
  lookup env0 st1 <> [] /\
  kserve_custom_model_deployer_step false env0 "s3://m/1" "s3://o/1" st1
  = kserve_model_deployer_step false env0 "s3://m/1" "s3://o/1" st1.
Proof.
  split; [reflexivity|]. split; [discriminate|].
  apply (reuse_path_steps_agree env0 "s3://m/1" "s3://o/1" st1
           (mkCustomDeployParamters "pkg.mod.predict")).
  - reflexivity.
  - discriminate.
Defined.

Lemma filter_map_mark_running (pn sn mn : string) (u : nat)
    (l : list KServeDeploymentService) :
  filter (fun x => same_identity pn sn mn x.(svc_config))
    (map (mark_running u) l)
  = map (mark_running u)
      (filter (fun x => same_identity pn sn mn x.(svc_config)) l).
Proof.
  assert (Hc : forall x, svc_config (mark_running u x) = svc_config x).
  { intros x; unfold mark_running; destruct (Nat.eqb _ _); reflexivity. }
  induction l as [|x l IH]; [reflexivity|].
  cbn [map filter]. rewrite Hc.
  destruct (same_identity pn sn mn (svc_config x)); cbn [map];
    rewrite IH; reflexivity.
Qed.

(** After a successful run, the returned service heads the lookup, is
    running, and the caller's configuration has the runtime identity. *)
Lemma model_step_success_facts (env : StepEnvironment)
    (model_uri_ output_uri : string) (s : St) (svc : KServeDeploymentService) :
  fst (kserve_model_deployer_step false env model_uri_ output_uri s) = inr svc ->
  let s1 := snd (kserve_model_deployer_step false env model_uri_ output_uri s) in
  (exists rest, lookup env s1 = svc :: rest) /\ is_running svc = true /\
  cfg s1 = with_runtime_identity env (cfg s).
Proof.
  unfold lookup, with_runtime_identity. run_step.
  destruct (filter _ (registry s)) as [|service rest] eqn:Hf.
  - destruct (String.eqb _ "pytorch"), (platform_ok s); cbn -[app];
      intros H; try discriminate; injection H as <-; cbn;
      unfold same_identity at 1; cbn; rewrite !String.eqb_refl; cbn;
      (split; [eexists; reflexivity|]); split; reflexivity.
  - destruct (is_running service) eqn:Hr; cbn -[app].
    + intros H; injection H as <-. cbn. rewrite Hf.
      split; [eexists; reflexivity|]. split; [exact Hr|reflexivity].
    + destruct (platform_ok s); cbn -[app]; intros H; try discriminate.
      injection H as <-. cbn.
      rewrite filter_map_mark_running, Hf. cbn.
      split; [eexists; reflexivity|].
      rewrite mark_running_self. split; reflexivity.
Qed.

(** X2: a second kserve_model_deployer_step with deploy_decision = false
    right after a successful one (any deploy decision path) returns the
    same service and only performs the lookup: no start, no deploy, no
    change to the registry or the caller's configuration. *)
Theorem model_step_second_run_reuses (env : StepEnvironment)
    (uri1 out1 uri2 out2 : string) (s : St) (svc : KServeDeploymentService) :
  fst (kserve_model_deployer_step false env uri1 out1 s) = inr svc ->
  let s1 := snd (kserve_model_deployer_step false env uri1 out1 s) in
  kserve_model_deployer_step false env uri2 out2 s1
  = (inr svc, mkSt s1.(cfg) s1.(registry) s1.(next_uuid) s1.(platform_ok)
                s1.(built_image)
                (s1.(trace) ++ [EvFind env.(se_pipeline_name) env.(se_step_name)
                                  s.(cfg).(service_config).(model_name)])%list).
Proof.
  intros Hok s1.
  destruct (model_step_success_facts env uri1 out1 s svc Hok)
    as [[rest Hl] [Hrun Hcfg]].
  fold s1 in Hl, Hcfg.
  unfold lookup in Hl. rewrite Hcfg in Hl. cbn in Hl.
  run_step. rewrite Hcfg. cbn. rewrite Hl, Hrun. cbn.
  unfold with_runtime_identity. destruct (cfg s) as [[] ? ? ?]. reflexivity.
Qed.

Lemma model_step_second_run_reuses_witness :
  fst (kserve_model_deployer_step false env0 "s3://m/1" "s3://o/1" st0)
  = inr (mkService 0 (mkServiceConfig "fraud-model" "s3://m/1" "sklearn"
           [("cpu", "100m")] 1 "fraud-pipe" "run-7" "eval_step" None) true) /\
  let s1 := snd (kserve_model_deployer_step false env0 "s3://m/1" "s3://o/1" st0) in
  kserve_model_deployer_step false env0 "s3://m/2" "s3://o/2" s1
  = (inr (mkService 0 (mkServiceConfig "fraud-model" "s3://m/1" "sklearn"
           [("cpu", "100m")] 1 "fraud-pipe" "run-7" "eval_step" None) true),
     mkSt s1.(cfg) s1.(registry) s1.(next_uuid) s1.(platform_ok)
       s1.(built_image)
       (s1.(trace) ++ [EvFind env0.(se_pipeline_name) env0.(se_step_name)
                         st0.(cfg).(service_config).(model_name)])%list).
Proof.
  split; [reflexivity|].
  apply (model_step_second_run_reuses env0 "s3://m/1" "s3://o/1" "s3://m/2"
           "s3://o/2" st0).
  reflexivity.
Defined.

(** ** ZenMLCustomModel *)

Section ManifestProperties.

Variable read_json : string -> exc + pyval.
Variable load_source_path_class : string -> exc + pyobj.
Variable handle_input : pyobj -> string -> pyobj -> exc + pyval.

(** X4: the artifact manifest is read from <model dir>/artifact.json and
    checked before any class is loaded: a manifest that is not a JSON
    object raises TypeError; one without a "datatype" key raises
    KeyError("datatype"); a "datatype" that is not a string raises
    TypeError; then a missing "materializer" key raises
    KeyError("materializer") and a "materializer" that is not a string
    raises TypeError. *)
Theorem load_artifact_manifest_keys (dir : string) (artifact : pyval) :
  read_json (os_path_join dir ARTIFACT_FILE) = inr artifact ->
  let r := _load_model_with_zenml_artifact read_json load_source_path_class
             handle_input dir in
  ((forall items, artifact <> PDict items) -> exists m, r = inl (TypeError m)) /\
  (forall items, artifact = PDict items ->
   find (fun kv => String.eqb (fst kv) "datatype") items = None ->
   r = inl (KeyError "datatype")) /\
  (forall items kv, artifact = PDict items ->
   find (fun kv => String.eqb (fst kv) "datatype") items = Some kv ->
   (forall s, snd kv <> PStr s) -> exists m, r = inl (TypeError m)) /\
  (forall items kv s, artifact = PDict items ->
   find (fun kv => String.eqb (fst kv) "datatype") items = Some kv ->
   snd kv = PStr s ->
   find (fun kv => String.eqb (fst kv) "materializer") items = None ->
   r = inl (KeyError "materializer")) /\
  (forall items kv s kv', artifact = PDict items ->
   find (fun kv => String.eqb (fst kv) "datatype") items = Some kv ->
   snd kv = PStr s ->
   find (fun kv => String.eqb (fst kv) "materializer") items = Some kv' ->
   (forall s', snd kv' <> PStr s') -> exists m, r = inl (TypeError m)).
Proof.
  intros Hr r. unfold r, _load_model_with_zenml_artifact.
  rewrite Hr. cbn [ebind]. repeat split.
  - intros Hnd. destruct artifact as [| | | | items];
      [eexists; reflexivity .. | exfalso; exact (Hnd items eq_refl)].
  - intros items -> Hn. cbn. rewrite Hn. reflexivity.
  - intros items [k v] -> Hk Hns. cbn. rewrite Hk. cbn in Hns |- *.
    destruct v; try (eexists; reflexivity).
    exfalso; exact (Hns _ eq_refl).
  - intros items [k v] s -> Hk Hv Hn. cbn in Hv. subst v. cbn.
    rewrite Hk. cbn. rewrite Hn. reflexivity.
  - intros items [k v] s [k' v'] -> Hk Hv Hm Hns. cbn in Hv, Hns. subst v.
    cbn. rewrite Hk. cbn. rewrite Hm. cbn.
    destruct v'; try (eexists; reflexivity).
    exfalso; exact (Hns _ eq_refl).
Qed.

End ManifestProperties.

Definition manifest_no_datatype : pyval :=
  PDict [("materializer", PStr "m.M")].

Lemma load_artifact_manifest_keys_witness :
  (fun _ : string => inr manifest_no_datatype : exc + pyval)
    (os_path_join "/tmp/model" ARTIFACT_FILE) = inr manifest_no_datatype /\
  _load_model_with_zenml_artifact (fun _ => inr manifest_no_datatype)
    (fun _ => inl (ModuleNotFoundError "m")) (fun _ _ _ => inr PNone)
    "/tmp/model" = inl (KeyError "datatype").
Proof.
  split; [reflexivity|].
  destruct (load_artifact_manifest_keys (fun _ => inr manifest_no_datatype)
              (fun _ => inl (ModuleNotFoundError "m")) (fun _ _ _ => inr PNone)
              "/tmp/model" manifest_no_datatype eq_refl) as [_ [H _]].
  apply (H _ eq_refl). reflexivity.
Defined.

(** X5: predict does not look at the loaded model or the ready flag: two
    servers with the same predict function answer every request alike,
    loaded or not. *)
Theorem predict_ignores_load_state (self1 self2 : ZenMLCustomModel)
    (request : pyval) :
  self1.(predict_func) = self2.(predict_func) ->
  predict self1 request = predict self2 request.
Proof. intros H. unfold predict. rewrite H. reflexivity. Qed.

Lemma predict_ignores_load_state_witness :
  fraud_server.(predict_func) = fraud_server.(predict_func) /\
  predict fraud_server (PDict [])
  = predict (mkZenMLCustomModel "fraud-model" "gs://bucket/fraud-model"
               (Some "/tmp/model") fraud_server.(predict_func)
               (Some (PStr "m")) true) (PDict []).
Proof.
  split; [reflexivity|].
  apply predict_ignores_load_state. reflexivity.
Defined.

(** ** TorchServeParamters.extra_files_validate *)

(** X6: extra_files_validate rejects the whole list as soon as one file is
    outside the repository, and otherwise joins every file onto the source
    root, keeping their order; None stays None. *)
Theorem extra_files_validate_spec (is_inside_repository : string -> bool)
    (source_root : string) (v : option (list string)) :
  extra_files_validate is_inside_repository source_root v
  = match v with
    | None => inr None
    | Some l =>
        if existsb (fun f => negb (is_inside_repository f)) l
        then inl (ValueError "Extra file path must be inside the repository.")
        else inr (Some (map (os_path_join source_root) l))
    end.
Proof.
  destruct v as [l|]; [|reflexivity].
  unfold extra_files_validate. rewrite extra_files_loop_spec.
  destruct (existsb _ l); reflexivity.
Qed.

(** ** Label Studio label config generators (label_config_generators.py) *)

(** zenml.enums.AnnotationTasks, the members this module uses. *)
Inductive AnnotationTasks : Type :=
| IMAGE_CLASSIFICATION
| OBJECT_DETECTION_BOUNDING_BOXES.

Definition AnnotationTasks_eqb (a b : AnnotationTasks) : bool :=
  match a, b with
  | IMAGE_CLASSIFICATION, IMAGE_CLASSIFICATION => true
  | OBJECT_DETECTION_BOUNDING_BOXES, OBJECT_DETECTION_BOUNDING_BOXES => true
  | _, _ => false
  end.

Definition TASK_TO_FILENAME_REFERENCE_MAPPING : list (AnnotationTasks * string) :=
  [(IMAGE_CLASSIFICATION, "image"); (OBJECT_DETECTION_BOUNDING_BOXES, "image")].

Definition task_reference (t : AnnotationTasks) : option string :=
  option_map snd
    (find (fun kv => AnnotationTasks_eqb (fst kv) t)
       TASK_TO_FILENAME_REFERENCE_MAPPING).

(** The newline and double-quote characters. *)
Definition nl : string := String "010"%char EmptyString.
Definition dq : string := String "034"%char EmptyString.

Definition generate_image_classification_label_config (labels : list string)
    : string * AnnotationTasks :=
  let label_config_type := IMAGE_CLASSIFICATION in
  let label_config_start :=
    "<View>" ++ nl ++
    "    <Image name=" ++ dq ++ "image" ++ dq ++ " value=" ++ dq ++ "$image"
    ++ dq ++ "/>" ++ nl ++
    "    <Choices name=" ++ dq ++ "choice" ++ dq ++ " toName=" ++ dq ++ "image"
    ++ dq ++ ">" ++ nl ++ "    " in
  let label_config_choices :=
    String.concat "" (map (fun label => "<Choice value='" ++ label ++ "' />" ++ nl)
                          labels) in
  let label_config_end := "</Choices>" ++ nl ++ "</View>" in
  (label_config_start ++ label_config_choices ++ label_config_end,
   label_config_type).

Definition generate_basic_object_detection_bounding_boxes_label_config
    (labels : list string) : string * AnnotationTasks :=
  let label_config_type := OBJECT_DETECTION_BOUNDING_BOXES in
  let label_config_start :=
    "<View>" ++ nl ++
    "    <Image name=" ++ dq ++ "image" ++ dq ++ " value=" ++ dq ++ "$image"
    ++ dq ++ "/>" ++ nl ++
    "    <RectangleLabels name=" ++ dq ++ "label" ++ dq ++ " toName=" ++ dq
    ++ "image" ++ dq ++ ">" ++ nl ++ "    " in
  let label_config_choices :=
    String.concat "" (map (fun label => "<Label value='" ++ label ++ "' />" ++ nl)
                          labels) in
  let label_config_end := "</RectangleLabels>" ++ nl ++ "</View>" in
  (label_config_start ++ label_config_choices ++ label_config_end,
   label_config_type).

(** The opening of a config whose first tag inside <View> is the Image
    tag named "image" reading its data from the task field <ref>. *)
Definition image_tag_opening (ref : string) : string :=
  "<View>" ++ nl ++ "    <Image name=" ++ dq ++ "image" ++ dq ++ " value="
  ++ dq ++ "$" ++ ref ++ dq ++ "/>" ++ nl.

(** X7: for every label list, both generators return a config that opens
    with <View> followed directly by the Image tag named "image" with
    value="$<ref>", where <ref> is what TASK_TO_FILENAME_REFERENCE_MAPPING
    gives for the task type returned alongside. *)
Theorem label_configs_match_filename_reference (labels : list string) :
  (let '(config, task) := generate_image_classification_label_config labels in
   exists ref rest, task_reference task = Some ref /\
     config = image_tag_opening ref ++ rest) /\
  (let '(config, task) :=
     generate_basic_object_detection_bounding_boxes_label_config labels in
   exists ref rest, task_reference task = Some ref /\
     config = image_tag_opening ref ++ rest).
Proof.
  split; cbn -[String.concat]; eexists "image", _;
  (split; [reflexivity|]); reflexivity.
Qed.

(** X8: the two generators never produce the same config, whatever the
    two label lists. *)
Theorem label_configs_distinct (labels1 labels2 : list string) :
  fst (generate_image_classification_label_config labels1)
  <> fst (generate_basic_object_detection_bounding_boxes_label_config labels2).
Proof.
  cbn -[String.concat]. intros H. congruence.
Qed.

(** ** SklearnStandardScaler.entrypoint: the columns it scales
    (sklearn_standard_scaler.py, lines 47-58) *)

(** Python set operations on column names, a set as a list. *)
Definition mem (x : string) (s : list string) : bool := existsb (String.eqb x) s.

Definition set_diff (s t : list string) : list string :=
  filter (fun c => negb (mem c t)) s.

(** set.remove: KeyError when the element is absent. *)
Definition set_remove (x : string) (s : list string) : exc + list string :=
  if mem x s then inr (filter (fun y => negb (String.eqb y x)) s)
  else inl (KeyError x).

Definition non_numeric (feature_type : string) : bool :=
  negb (String.eqb feature_type "int64") && negb (String.eqb feature_type "float64").

(** The loop over schema_dict (feature -> dtype name of the schema's first
    row). *)
Fixpoint remove_non_numeric (schema_dict : list (string * string))
    (feature_set : list string) : exc + list string :=
  match schema_dict with
  | [] => inr feature_set
  | (feature, feature_type) :: rest =>
      if non_numeric feature_type then
        ebind (set_remove feature feature_set) (remove_non_numeric rest)
      else remove_non_numeric rest feature_set
  end.

Definition transform_feature_set (train_columns exclude_columns
    ignore_columns : list string) (schema_dict : list (string * string))
    : exc + list string :=
  let feature_set := set_diff train_columns exclude_columns in
  ebind (remove_non_numeric schema_dict feature_set)
    (fun feature_set => inr (set_diff feature_set ignore_columns)).





Example scaler_excluded_text_column_raises :
  transform_feature_set ["age"; "city"] ["city"] [] [("age", "int64"); ("city", "object")]
  = inl (KeyError "city").
Proof. reflexivity. Qed.
